(** * Registration routes of the StudentShopSquad backend

    A shallow embedding of [my-react-app/backend/routes/Registration.mjs]:
    the three Express handlers

    - [POST /api/register]
    - [GET  /api/register/usercheck/:username]
    - [GET  /api/register/emailcheck/:email]

    written in a small state-and-exception monad over a [World] that holds
    the user collection, the session of the request and the response under
    construction, followed by the properties of the handlers. *)

From Stdlib Require Import Ascii String List Bool Arith Lia.
Import ListNotations.
Open Scope string_scope.
Open Scope list_scope.

(** ** Data model *)

(** Modelled from the spec: the user model of [../mongoose/user.mjs] is not
    part of the sources.  A user record carries [username], [password] and
    [email]; the identifier is assigned by the store when the record is
    persisted, so a document built by [new user(...)] has none yet. *)
Record User := mkUser {
  ident : option nat;
  username : string;
  password : string;
  email : string
}.

(** The JavaScript values the handlers pass to [response.json]: strings,
    booleans, user documents and object literals. *)
#[warnings="-register-all"]
Inductive value :=
| VStr (s : string)
| VBool (b : bool)
| VDoc (u : User)
| VObj (fields : list (string * value)).

(** A thrown JavaScript error. *)
Inductive exn := Error (msg : string).

(** The filters handed to [user.findOne]: [{ username }] and [{ email }]. *)
Inductive Filter :=
| ByUsername (s : string)
| ByEmail (s : string).

(** Calls to the collaborators, and how each one ended. *)
Inductive Call :=
| FindOne (f : Filter)
| Save (u : User)
| HashPassword (plaintext : string).

Inductive Event :=
| Returned (c : Call)
| Threw (c : Call) (e : exn).

(** [request.session], which the session middleware attaches to every
    request; the handlers touch its [user] property only. *)
Record Session := mkSession { session_user : option User }.

(** The Express response.  [status] only records the status code; the
    response leaves the server when [json] is called, which is what
    [headersSent] tells. *)
Record Response := mkResponse {
  statusCode : nat;
  res_body : option value;
  headersSent : bool
}.

Definition fresh_response : Response :=
  {| statusCode := 200; res_body := None; headersSent := false |}.

(** [request.body] of the registration form and [request.params]. *)
Record Body := mkBody {
  body_username : string;
  body_password : string;
  body_email : string
}.

Record Params := mkParams {
  params_username : string;
  params_email : string
}.

Record Request := mkRequest {
  req_body : Body;
  req_params : Params
}.

(** Everything a handler can read or change.  [outage] is the environment's
    choice, for the n-th call to the store, of whether that call throws;
    [calls] counts the store calls made so far and [trace] lists the
    collaborator calls in the order they happened. *)
Record World := mkWorld {
  docs : list User;
  outage : nat -> option exn;
  calls : nat;
  trace : list Event;
  session : Session;
  response : Response
}.

Definition initial (db : list User) (out : nat -> option exn) (sess : Session)
  : World :=
  {| docs := db; outage := out; calls := 0; trace := [];
     session := sess; response := fresh_response |}.

Definition set_response (r : Response) (w : World) : World :=
  {| docs := docs w; outage := outage w; calls := calls w; trace := trace w;
     session := session w; response := r |}.

Definition set_session (s : Session) (w : World) : World :=
  {| docs := docs w; outage := outage w; calls := calls w; trace := trace w;
     session := s; response := response w |}.

Definition log (ev : Event) (w : World) : World :=
  {| docs := docs w; outage := outage w; calls := calls w;
     trace := trace w ++ [ev];
     session := session w; response := response w |}.

(** ** The handler monad: state with exceptions

    An exception keeps the state reached when it was thrown, as in
    JavaScript: nothing is rolled back. *)

Definition M (A : Type) : Type := World -> (exn + A) * World.

Definition ret {A} (a : A) : M A := fun w => (inr a, w).

Definition bind {A B} (m : M A) (k : A -> M B) : M B :=
  fun w =>
    match m w with
    | (inl e, w') => (inl e, w')
    | (inr a, w') => k a w'
    end.

Definition try_catch {A} (m : M A) (handler : exn -> M A) : M A :=
  fun w =>
    match m w with
    | (inl e, w') => handler e w'
    | (inr a, w') => (inr a, w')
    end.

Declare Scope handler_scope.
Delimit Scope handler_scope with handler.
Notation "x <- m ;; k" := (bind m (fun x => k))
  (at level 61, m at next level, right associativity) : handler_scope.
Notation "m ;; k" := (bind m (fun _ => k))
  (at level 61, right associativity) : handler_scope.

(** ** The response object *)

(** [response.status(code)] *)
Definition status (code : nat) : M unit :=
  fun w =>
    (inr tt,
     set_response {| statusCode := code;
                     res_body := res_body (response w);
                     headersSent := headersSent (response w) |} w).

(** [response.json(v)] *)
Definition json (v : value) : M unit :=
  fun w =>
    (inr tt,
     set_response {| statusCode := statusCode (response w);
                     res_body := Some v;
                     headersSent := true |} w).

(** [request.session.user = u] *)
Definition set_session_user (u : User) : M unit :=
  fun w => (inr tt, set_session {| session_user := Some u |} w).

(** ** The user store *)

Definition matches (f : Filter) (u : User) : bool :=
  match f with
  | ByUsername s => username u =? s
  | ByEmail s => email u =? s
  end.

(** One call to the store: it throws when the environment says so, and
    otherwise runs [op] on the collection. *)
Definition store_call {A} (c : Call) (op : list User -> A * list User) : M A :=
  fun w =>
    match outage w (calls w) with
    | Some e =>
        (inl e,
         {| docs := docs w; outage := outage w; calls := S (calls w);
            trace := trace w ++ [Threw c e];
            session := session w; response := response w |})
    | None =>
        let (a, d) := op (docs w) in
        (inr a,
         {| docs := d; outage := outage w; calls := S (calls w);
            trace := trace w ++ [Returned c];
            session := session w; response := response w |})
    end.

(** Modelled from the spec: [user.findOne(filter)] of the absent user model,
    an exact-match lookup on [username] or [email] that returns the first
    matching record, or null. *)
Definition findOne (f : Filter) : M (option User) :=
  store_call (FindOne f) (fun d => (find (matches f) d, d)).

(** [new user({ username, password, email })] *)
Definition new_user (username password email : string) : User :=
  {| ident := None; username := username; password := password;
     email := email |}.

Definition persisted (id : nat) (u : User) : User :=
  {| ident := Some id; username := username u; password := password u;
     email := email u |}.

(** Modelled from the spec: [doc.save()] of the absent user model, the insert
    of a new document.  The store assigns the identifier and returns the
    saved record; it enforces no uniqueness of its own. *)
Definition save (u : User) : M User :=
  store_call (Save u)
    (fun d => let saved := persisted (List.length d) u in (saved, d ++ [saved])).

(** ** The validation chains of express-validator

    A field is a string, held as the bytes of its UTF-8 encoding;
    [notEmpty] and [isLength({ min })] are the checks of validator.js on
    it.  [isLength] measures a string in characters: its UTF-16 length less
    one for every surrogate pair, which is the number of code points, less
    one for every variation selector U+FE0E or U+FE0F. *)

Definition notEmpty (s : string) : bool := negb (s =? "").

(** The bytes 80 to BF, which continue the encoding of a code point. *)
Definition continuation (c : ascii) : bool :=
  match c with
  | Ascii _ _ _ _ _ _ false true => true
  | _ => false
  end.

(** The string starts with a variation selector: EF B8 8E or EF B8 8F. *)
Definition selector_ahead (s : string) : bool :=
  match s with
  | String a (String b (String c _)) =>
      Ascii.eqb a "239" && Ascii.eqb b "184"
      && (Ascii.eqb c "142" || Ascii.eqb c "143")
  | _ => false
  end.

(** The length [isLength] compares with its bounds: one for each byte that
    starts a code point other than a variation selector. *)
Fixpoint characters (s : string) : nat :=
  match s with
  | EmptyString => 0
  | String c rest =>
      (if continuation c || selector_ahead s then 0 else 1) + characters rest
  end.

Definition isLength (min : nat) (s : string) : bool :=
  Nat.leb min (characters s).

Definition check (ok : bool) (msg : string) : list string :=
  if ok then [] else [msg].

(** Truthiness of what [findOne] resolves to: a document, or null. *)
Definition truthy (found : option User) : bool :=
  match found with
  | Some _ => true
  | None => false
  end.

Definition isEmpty {A} (errors : list A) : bool :=
  match errors with
  | [] => true
  | _ :: _ => false
  end.

(** Modelled from the spec: [hashPassword] of [../utils/helpers.mjs] is not
    part of the sources.  It maps a plaintext to its stored hash, or throws;
    the password is "stored as a hash, never plaintext at rest", so a hash
    is never the plaintext it was computed from. *)
Class Helpers := {
  hashPassword : string -> exn + string;
  hashPassword_never_plaintext :
    forall p h, hashPassword p = inr h -> h <> p
}.

Section Routes.

Context {helpers : Helpers}.

(** [isEmail] of validator.js, the syntax check behind [.isEmail()]. *)
Variable isEmail : string -> bool.

Local Open Scope handler_scope.

(** [validationResult(request).array()], as the list of messages. *)
Definition validationResult (request : Request) : list string :=
  let b := req_body request in
  check (notEmpty (body_username b)) "Username is required"
  ++ check (isLength 3 (body_username b))
       "Username must be at least 3 characters long"
  ++ check (notEmpty (body_password b)) "Password is required"
  ++ check (isLength 3 (body_password b))
       "Password must be at least 3 characters long"
  ++ check (notEmpty (body_email b)) "Email is required"
  ++ check (isEmail (body_email b)) "Must be a valid email address".

(** The call [hashPassword(password)], with its place in the trace. *)
Definition hash (plaintext : string) : M string :=
  fun w =>
    match hashPassword plaintext with
    | inl e => (inl e, log (Threw (HashPassword plaintext) e) w)
    | inr h => (inr h, log (Returned (HashPassword plaintext)) w)
    end.

(** ** The handlers *)

(** [router.post('/api/register', ...)] *)
Definition register (request : Request) : M unit :=
  let result := validationResult request in
  if negb (isEmpty result) then
    status 400
  else
    let username := body_username (req_body request) in
    let password := body_password (req_body request) in
    let email := body_email (req_body request) in
    try_catch
      (userExists <- findOne (ByUsername username) ;;
       if truthy userExists then
         status 400 ;;
         json (VObj [("message", VStr "Username taken")])
       else
         emailExists <- findOne (ByEmail email) ;;
         if truthy emailExists then
           status 400 ;;
           json (VObj [("message", VStr "Email previously registered")])
         else
           password <- hash password ;;
           let newUser := new_user username password email in
           savedUser <- save newUser ;;
           set_session_user newUser ;;
           status 201 ;;
           json (VObj [("message", VStr "Registration successful");
                       ("user", VDoc newUser)]))
      (fun error =>
         status 500 ;;
         json (VObj [("message", VStr "Error creating user account")])).

(** [router.get('/api/register/usercheck/:username', ...)] *)
Definition usercheck (request : Request) : M unit :=
  try_catch
    (existingUser <- findOne (ByUsername (params_username (req_params request))) ;;
     json (VObj [("available",
                  VBool (negb (truthy existingUser)))]))
    (fun error =>
       status 500 ;;
       json (VObj [("message",
                    VStr "Error checking when searching username check")])).

(** [router.get('/api/register/emailcheck/:email', ...)] *)
Definition emailcheck (request : Request) : M unit :=
  try_catch
    (existingEmail <- findOne (ByEmail (params_email (req_params request))) ;;
     json (VObj [("available",
                  VBool (negb (truthy existingEmail)))]))
    (fun error =>
       status 500 ;;
       json (VObj [("message", VStr "Error checking email availability")])).

End Routes.

(** ** Sample collaborators and data

    Concrete collaborators on which the handlers can be run. *)

(** A stand-in for validator.js: an at sign that is not the first character. *)
Definition simple_isEmail (s : string) : bool :=
  match index 0 "@" s with
  | Some (S _) => true
  | _ => false
  end.

Definition salted (plaintext : string) : exn + string :=
  inr (String.append "$2b$" plaintext).

(** A hasher that prefixes the plaintext: the hash is four characters
    longer than the plaintext. *)
Definition salted_helpers : Helpers.
Proof.
  refine {| hashPassword := salted |}.
  intros p h H; injection H as <-; intros E.
  apply (f_equal String.length) in E; simpl in E; lia.
Defined.

(** A hasher that always throws. *)
Definition failing_helpers : Helpers.
Proof.
  refine {| hashPassword := fun _ => inl (Error "hashing failed") |}.
  intros p h H; discriminate H.
Defined.

Definition no_outage : nat -> option exn := fun _ => None.

(** The store is unreachable at its n-th call. *)
Definition outage_at (n : nat) : nat -> option exn :=
  fun k => if Nat.eqb k n then Some (Error "store unreachable") else None.

Definition anonymous : Session := {| session_user := None |}.

Definition no_params : Params := {| params_username := ""; params_email := "" |}.

Definition post (username password email : string) : Request :=
  {| req_body := {| body_username := username; body_password := password;
                    body_email := email |};
     req_params := no_params |}.

Definition get_usercheck (username : string) : Request :=
  {| req_body := {| body_username := ""; body_password := ""; body_email := "" |};
     req_params := {| params_username := username; params_email := "" |} |}.

Definition get_emailcheck (email : string) : Request :=
  {| req_body := {| body_username := ""; body_password := ""; body_email := "" |};
     req_params := {| params_username := ""; params_email := email |} |}.

Definition alice : User :=
  {| ident := Some 0; username := "alice"; password := "$2b$wonderland";
     email := "alice@example.com" |}.

Definition bobby_request : Request := post "bobby" "secret" "bob@example.com".

(** What a handler leaves behind when it is run on a fresh request. *)
Definition outcome (handler : M unit) (db : list User)
    (out : nat -> option exn) (sess : Session) : World :=
  snd (handler (initial db out sess)).

(** The handler answered: a response with this status and body was sent. *)
Definition responded (w : World) (code : nat) (v : value) : Prop :=
  headersSent (response w) = true
  /\ statusCode (response w) = code
  /\ res_body (response w) = Some v.

Definition threw (ev : Event) : bool :=
  match ev with
  | Threw _ _ => true
  | Returned _ => false
  end.

Definition is_save (ev : Event) : bool :=
  match ev with
  | Returned (Save _) | Threw (Save _) _ => true
  | _ => false
  end.

Definition save_returned (ev : Event) : bool :=
  match ev with
  | Returned (Save _) => true
  | _ => false
  end.

Definition is_hash (ev : Event) : bool :=
  match ev with
  | Returned (HashPassword _) | Threw (HashPassword _) _ => true
  | _ => false
  end.

(** Two characters in six bytes: U+65E5 U+672C, in UTF-8
    E6 97 A5 E6 9C AC. *)
Definition two_kanji : string :=
  String "230" (String "151" (String "165"
    (String "230" (String "156" (String "172" EmptyString))))).

(** A form sent empty. *)
Definition empty_request : Request := post "" "" "".

(** The world after bobby has registered with a store that holds alice,
    and the record the store holds for him. *)
Definition bobby_created : World :=
  outcome (@register salted_helpers simple_isEmail bobby_request)
    [alice] no_outage anonymous.

Definition bobby_record : User :=
  persisted 1 (new_user "bobby" "$2b$secret" "bob@example.com").

(** ** The router and the successive requests of a client *)

(** The three routes the router is given. *)
Inductive Route :=
| PostRegister
| GetUsercheck
| GetEmailcheck.

Section Router.

Context {helpers : Helpers}.
Variable isEmail : string -> bool.

(** [export default router]: the handler registered for each route. *)
Definition router (route : Route) : Request -> M unit :=
  match route with
  | PostRegister => register isEmail
  | GetUsercheck => usercheck
  | GetEmailcheck => emailcheck
  end.

(** Every request gets a response of its own; the store, and the session of
    the client, are the ones the request before left. *)
Definition next_request (w : World) : World :=
  set_response fresh_response w.

Definition serve (w : World) (incoming : Route * Request) : World :=
  snd (router (fst incoming) (snd incoming) (next_request w)).

(** Requests handled one after the other. *)
Definition serve_all (incoming : list (Route * Request)) (w : World) : World :=
  fold_left serve incoming w.

End Router.

(** No two records share a username, and no two share an email. *)
Definition unique (db : list User) : Prop :=
  NoDup (map username db) /\ NoDup (map email db).

Definition is_register (incoming : Route * Request) : bool :=
  match fst incoming with
  | PostRegister => true
  | _ => false
  end.

(** ** The console

    The handlers also write to the console of the server.  The handlers
    below are the ones above with those calls in place: the state is the
    world together with the lines written so far. *)

(** An argument of [console.log] or [console.error]. *)
Inductive Printed :=
| PText (s : string)
| PValue (v : value)
| PMessages (errors : list string)
| PError (e : exn).

Inductive Line :=
| ConsoleLog (args : list Printed)
| ConsoleError (args : list Printed).

Definition C (A : Type) : Type :=
  World * list Line -> (exn + A) * (World * list Line).

Definition bindC {A B} (m : C A) (k : A -> C B) : C B :=
  fun s =>
    match m s with
    | (inl e, s') => (inl e, s')
    | (inr a, s') => k a s'
    end.

Definition try_catchC {A} (m : C A) (handler : exn -> C A) : C A :=
  fun s =>
    match m s with
    | (inl e, s') => handler e s'
    | (inr a, s') => (inr a, s')
    end.

(** A step that does not write to the console. *)
Definition lift {A} (m : M A) : C A :=
  fun s =>
    let (r, w') := m (fst s) in (r, (w', snd s)).

(** [console.log(...args)] *)
Definition console_log (args : list Printed) : C unit :=
  fun s => (inr tt, (fst s, snd s ++ [ConsoleLog args])).

(** [console.error(...args)] *)
Definition console_error (args : list Printed) : C unit :=
  fun s => (inr tt, (fst s, snd s ++ [ConsoleError args])).

Declare Scope console_scope.
Delimit Scope console_scope with console.
Notation "x <- m ;; k" := (bindC m (fun x => k))
  (at level 61, m at next level, right associativity) : console_scope.
Notation "m ;; k" := (bindC m (fun _ => k))
  (at level 61, right associativity) : console_scope.

Section Console.

Context {helpers : Helpers}.
Variable isEmail : string -> bool.

Local Open Scope console_scope.

(** The arguments of [console.log('New user registered:',
    savedUser.username)]. *)
Definition new_user_registered (savedUser : User) : list Printed :=
  [PText "New user registered:"; PText (username savedUser)].

(** [{ ...request.body, password: request.body.password }] *)
Definition attempt (request : Request) : value :=
  VObj [("username", VStr (body_username (req_body request)));
        ("password", VStr (body_password (req_body request)));
        ("email", VStr (body_email (req_body request)))].

(** [router.post('/api/register', ...)], console included. *)
Definition register_logged (request : Request) : C unit :=
  console_log [PText "Registration attempt received:";
               PValue (attempt request)] ;;
  let result := validationResult isEmail request in
  if negb (isEmpty result) then
    console_log [PText "Validation errors:"; PMessages result] ;;
    lift (status 400)
  else
    let username := body_username (req_body request) in
    let password := body_password (req_body request) in
    let email := body_email (req_body request) in
    try_catchC
      (userExists <- lift (findOne (ByUsername username)) ;;
       if truthy userExists then
         console_log [PText "Username already exists please try again"] ;;
         lift (status 400) ;;
         lift (json (VObj [("message", VStr "Username taken")]))
       else
         emailExists <- lift (findOne (ByEmail email)) ;;
         if truthy emailExists then
           console_log [PText "Email already exists please try again"] ;;
           lift (status 400) ;;
           lift (json (VObj [("message", VStr "Email previously registered")]))
         else
           password <- lift (hash password) ;;
           console_log [PText password] ;;
           let newUser := new_user username password email in
           savedUser <- lift (save newUser) ;;
           console_log (new_user_registered savedUser) ;;
           lift (set_session_user newUser) ;;
           lift (status 201) ;;
           lift (json (VObj [("message", VStr "Registration successful");
                             ("user", VDoc newUser)])))
      (fun error =>
         console_error [PText "Registration error:"; PError error] ;;
         lift (status 500) ;;
         lift (json (VObj [("message", VStr "Error creating user account")]))).

(** [router.get('/api/register/usercheck/:username', ...)], console
    included. *)
Definition usercheck_logged (request : Request) : C unit :=
  try_catchC
    (existingUser <-
       lift (findOne (ByUsername (params_username (req_params request)))) ;;
     lift (json (VObj [("available", VBool (negb (truthy existingUser)))])))
    (fun error =>
       console_error [PText "Username check error:"; PError error] ;;
       lift (status 500) ;;
       lift (json (VObj [("message",
                          VStr "Error checking when searching username check")]))).

(** [router.get('/api/register/emailcheck/:email', ...)], console
    included. *)
Definition emailcheck_logged (request : Request) : C unit :=
  try_catchC
    (existingEmail <-
       lift (findOne (ByEmail (params_email (req_params request)))) ;;
     lift (json (VObj [("available", VBool (negb (truthy existingEmail)))])))
    (fun error =>
       console_error [PText "Email check error:"; PError error] ;;
       lift (status 500) ;;
       lift (json (VObj [("message",
                          VStr "Error checking email availability")]))).

End Console.

(** The world and the console a handler leaves on a fresh request, the
    console being empty before. *)
Definition outcome_logged (handler : C unit) (db : list User)
    (out : nat -> option exn) (sess : Session) : World * list Line :=
  snd (handler (initial db out sess, [])).

Definition is_console_error (line : Line) : bool :=
  match line with
  | ConsoleError _ => true
  | ConsoleLog _ => false
  end.

(** * Properties of the handlers *)

(** ** The store lookups *)

Lemma matches_username (s : string) (u : User) :
  matches (ByUsername s) u = true <-> username u = s.
Proof. apply String.eqb_eq. Qed.

Lemma matches_email (s : string) (u : User) :
  matches (ByEmail s) u = true <-> email u = s.
Proof. apply String.eqb_eq. Qed.

Lemma find_matches_none (f : Filter) (db : list User) :
  find (matches f) db = None <-> (forall u, In u db -> matches f u = false).
Proof.
  split.
  - intros H u Hin. exact (find_none _ _ H u Hin).
  - induction db as [|d db IH]; intros H; simpl.
    + reflexivity.
    + rewrite (H d (or_introl eq_refl)). apply IH.
      intros u Hin. apply H. right; exact Hin.
Qed.

Lemma find_matches_some (f : Filter) (db : list User) (u : User) :
  In u db -> matches f u = true -> truthy (find (matches f) db) = true.
Proof.
  intros Hin Hm. destruct (find (matches f) db) eqn:E.
  - reflexivity.
  - rewrite (find_none _ _ E u Hin) in Hm. discriminate Hm.
Qed.

Lemma truthy_false (found : option User) :
  truthy found = false <-> found = None.
Proof. destruct found; simpl; split; congruence. Qed.

Lemma username_free (s : string) (db : list User) :
  truthy (find (matches (ByUsername s)) db) = false
  <-> (forall u, In u db -> username u <> s).
Proof.
  rewrite truthy_false, find_matches_none. split; intros H u Hin.
  - intros E. apply matches_username in E. rewrite (H u Hin) in E.
    discriminate E.
  - destruct (matches (ByUsername s) u) eqn:E; [|reflexivity].
    apply matches_username in E. exfalso. exact (H u Hin E).
Qed.

Lemma email_free (s : string) (db : list User) :
  truthy (find (matches (ByEmail s)) db) = false
  <-> (forall u, In u db -> email u <> s).
Proof.
  rewrite truthy_false, find_matches_none. split; intros H u Hin.
  - intros E. apply matches_email in E. rewrite (H u Hin) in E.
    discriminate E.
  - destruct (matches (ByEmail s) u) eqn:E; [|reflexivity].
    apply matches_email in E. exfalso. exact (H u Hin E).
Qed.

(** A string has at most as many characters as bytes. *)
Lemma characters_le_length (s : string) : characters s <= String.length s.
Proof.
  induction s as [|c rest IH]; [apply Nat.le_refl|].
  change (characters (String c rest))
    with ((if continuation c || selector_ahead (String c rest) then 0 else 1)
          + characters rest).
  simpl String.length.
  destruct (continuation c || selector_ahead (String c rest)); simpl; lia.
Qed.

(** Unfolds a handler run down to the calls of the collaborators. *)
Ltac run :=
  unfold outcome, responded, register, usercheck, emailcheck, try_catch, bind,
    findOne, save, store_call, status, json, set_session_user,
    set_response, set_session, log, initial;
  simpl.

Section Properties.

Context {helpers : Helpers}.
Variable isEmail : string -> bool.

(** ** Validation *)

(** A request is valid when the three chains raise no message. *)
Definition valid (request : Request) : Prop :=
  validationResult isEmail request = [].

Lemma invalid_has_errors (request : Request) :
  characters (body_username (req_body request)) < 3
  \/ characters (body_password (req_body request)) < 3
  \/ isEmail (body_email (req_body request)) = false ->
  isEmpty (validationResult isEmail request) = false.
Proof.
  unfold validationResult, check, isLength.
  destruct (Nat.leb_spec 3 (characters (body_username (req_body request))));
  destruct (Nat.leb_spec 3 (characters (body_password (req_body request))));
  destruct (isEmail (body_email (req_body request)));
  destruct (notEmpty (body_username (req_body request)));
  destruct (notEmpty (body_password (req_body request)));
  destruct (notEmpty (body_email (req_body request)));
  simpl; intros [H'|[H'|H']]; try reflexivity; try lia; discriminate H'.
Qed.

Lemma valid_passes (request : Request) :
  valid request -> isEmpty (validationResult isEmail request) = true.
Proof. unfold valid; intros ->; reflexivity. Qed.

(** What validation lets through: the fields the chains ask for. *)
Lemma valid_fields (request : Request) :
  valid request <->
  3 <= characters (body_username (req_body request))
  /\ 3 <= characters (body_password (req_body request))
  /\ body_email (req_body request) <> ""
  /\ isEmail (body_email (req_body request)) = true.
Proof.
  unfold valid, validationResult, check, isLength, notEmpty.
  destruct (String.eqb_spec (body_email (req_body request)) "") as [Ee|Ee];
  destruct (String.eqb_spec (body_username (req_body request)) "") as [Eu|Eu];
  destruct (String.eqb_spec (body_password (req_body request)) "") as [Ep|Ep];
  try rewrite Ee; try rewrite Eu; try rewrite Ep;
  destruct (Nat.leb_spec 3 (characters (body_username (req_body request))));
  destruct (Nat.leb_spec 3 (characters (body_password (req_body request))));
  destruct (isEmail (body_email (req_body request)));
  simpl; split;
  try discriminate; try (intros (?&?&?&?); try congruence; simpl in *; lia);
  try (intros _; repeat split; try assumption; try congruence; lia).
Qed.

(** The paths through [register], one goal each, with the outcome of every
    collaborator call among the hypotheses. *)
Ltac register_paths request db out :=
  run;
  destruct (isEmpty (validationResult isEmail request)) eqn:Hvalidation; simpl;
  [ destruct (out 0) as [e0|] eqn:Hlookup1; simpl;
    [ | destruct (truthy (find (matches
            (ByUsername (body_username (req_body request)))) db))
          eqn:Husername; simpl;
        [ | destruct (out 1) as [e1|] eqn:Hlookup2; simpl;
            [ | destruct (truthy (find (matches
                    (ByEmail (body_email (req_body request)))) db))
                  eqn:Hemail; simpl;
                [ | unfold hash;
                    destruct (hashPassword (body_password (req_body request)))
                      as [eh|h] eqn:Hhash; simpl;
                    [ | destruct (out 2) as [e2|] eqn:Hsave; simpl ] ] ] ] ]
  | ].

(** Validation failure: the status code is set, and nothing else happens. *)
Lemma register_invalid (request : Request) (w : World) :
  isEmpty (validationResult isEmail request) = false ->
  register isEmail request w =
    (inr tt,
     set_response {| statusCode := 400; res_body := res_body (response w);
                     headersSent := headersSent (response w) |} w).
Proof. unfold register; intros ->; reflexivity. Qed.

(** ** Registration: the successful path *)

(** C1: on a store with no record of the username and none of the email, a
    valid request is answered 201 with the message and the new user, a
    record with the username is in the store afterwards, and the password
    stored with that username is not the plaintext (the collaborators being
    up: no store call throws and the hasher returns [h]). *)
Theorem register_creates_account
    (request : Request) (db : list User) (out : nat -> option exn)
    (sess : Session) (h : string) :
  valid request ->
  (forall u, In u db -> username u <> body_username (req_body request)) ->
  (forall u, In u db -> email u <> body_email (req_body request)) ->
  out 0 = None -> out 1 = None -> out 2 = None ->
  hashPassword (body_password (req_body request)) = inr h ->
  let w' := outcome (register isEmail request) db out sess in
  let newUser := new_user (body_username (req_body request)) h
                   (body_email (req_body request)) in
  responded w' 201
    (VObj [("message", VStr "Registration successful");
           ("user", VDoc newUser)])
  /\ docs w' = db ++ [persisted (List.length db) newUser]
  /\ (exists u, In u (docs w')
                /\ username u = body_username (req_body request))
  /\ (forall u, In u (docs w') ->
                username u = body_username (req_body request) ->
                password u <> body_password (req_body request)).
Proof.
  intros Hvalid Hu He H0 H1 H2 Hh.
  apply valid_passes in Hvalid.
  pose proof (proj2 (username_free _ _) Hu) as Hu'.
  pose proof (proj2 (email_free _ _) He) as He'.
  run. unfold hash. rewrite Hvalid; simpl.
  rewrite H0; simpl. rewrite Hu'; simpl. rewrite H1; simpl.
  rewrite He'; simpl. rewrite Hh; simpl. rewrite H2; simpl.
  repeat split.
  - eexists. split; [apply in_or_app; right; left; reflexivity|reflexivity].
  - intros u Hin Hname. apply in_app_or in Hin. destruct Hin as [Hin|[<-|[]]].
    + exfalso. exact (Hu u Hin Hname).
    + simpl. exact (hashPassword_never_plaintext _ _ Hh).
Qed.

(** ** Registration: the conflicts *)

(** C3: when the store holds a record with the username of a valid request,
    the answer is 400 "Username taken" and nothing is inserted: the store
    is the one before, and the handler never calls [save]. *)
Theorem register_username_taken
    (request : Request) (db : list User) (out : nat -> option exn)
    (sess : Session) :
  valid request ->
  (exists u, In u db /\ username u = body_username (req_body request)) ->
  out 0 = None ->
  let w' := outcome (register isEmail request) db out sess in
  responded w' 400 (VObj [("message", VStr "Username taken")])
  /\ docs w' = db
  /\ existsb is_save (trace w') = false.
Proof.
  intros Hvalid [u [Hin Hname]] H0.
  apply valid_passes in Hvalid.
  pose proof (find_matches_some (ByUsername _) db u Hin
                (proj2 (matches_username _ _) Hname)) as Hfound.
  run. rewrite Hvalid; simpl. rewrite H0; simpl. rewrite Hfound; simpl.
  repeat split.
Qed.

(** C4: when no record has the username of a valid request but one has its
    email, the answer is 400 "Email previously registered" and nothing is
    inserted; when a record has the username as well, the username lookup
    comes first and the answer is "Username taken". *)
Theorem register_email_registered
    (request : Request) (db : list User) (out : nat -> option exn)
    (sess : Session) :
  valid request ->
  (exists u, In u db /\ email u = body_email (req_body request)) ->
  out 0 = None -> out 1 = None ->
  let w' := outcome (register isEmail request) db out sess in
  ((forall u, In u db -> username u <> body_username (req_body request)) ->
   responded w' 400 (VObj [("message", VStr "Email previously registered")])
   /\ docs w' = db
   /\ existsb is_save (trace w') = false)
  /\ ((exists u, In u db /\ username u = body_username (req_body request)) ->
      responded w' 400 (VObj [("message", VStr "Username taken")])
      /\ docs w' = db
      /\ existsb is_save (trace w') = false).
Proof.
  intros Hvalid [u [Hin Hmail]] H0 H1.
  apply valid_passes in Hvalid.
  pose proof (find_matches_some (ByEmail _) db u Hin
                (proj2 (matches_email _ _) Hmail)) as Hfound.
  split.
  - intros Hfree. apply username_free in Hfree.
    run. rewrite Hvalid; simpl. rewrite H0; simpl. rewrite Hfree; simpl.
    rewrite H1; simpl. rewrite Hfound; simpl. repeat split.
  - intros [v [Hv Hname]].
    pose proof (find_matches_some (ByUsername _) db v Hv
                  (proj2 (matches_username _ _) Hname)) as Htaken.
    run. rewrite Hvalid; simpl. rewrite H0; simpl. rewrite Htaken; simpl.
    repeat split.
Qed.

(** ** The availability checks *)

(** C5: when the lookup returns, the username check answers 200 with
    [{available: b}], where [b] is true exactly when no record has that
    username; the email check does the same on the email. *)
Theorem availability_checks
    (request : Request) (db : list User) (out : nat -> option exn)
    (sess : Session) :
  out 0 = None ->
  (exists b,
     responded (outcome (usercheck request) db out sess) 200
       (VObj [("available", VBool b)])
     /\ (b = true <->
         forall u, In u db -> username u <> params_username (req_params request)))
  /\ (exists b,
        responded (outcome (emailcheck request) db out sess) 200
          (VObj [("available", VBool b)])
        /\ (b = true <->
            forall u, In u db -> email u <> params_email (req_params request))).
Proof.
  intros H0. split; eexists; (split; [run; rewrite H0; simpl; repeat split|]).
  - rewrite negb_true_iff. apply username_free.
  - rewrite negb_true_iff. apply email_free.
Qed.

(** C9: the availability checks only read: whatever the lookup does, the
    store and the session are the ones before, and the one call made to the
    store is the [findOne]. *)
Theorem availability_checks_read_only
    (request : Request) (db : list User) (out : nat -> option exn)
    (sess : Session) :
  (let w' := outcome (usercheck request) db out sess in
   let lookup := FindOne (ByUsername (params_username (req_params request))) in
   docs w' = db /\ session w' = sess
   /\ (trace w' = [Returned lookup] \/ exists e, trace w' = [Threw lookup e]))
  /\ (let w' := outcome (emailcheck request) db out sess in
      let lookup := FindOne (ByEmail (params_email (req_params request))) in
      docs w' = db /\ session w' = sess
      /\ (trace w' = [Returned lookup] \/ exists e, trace w' = [Threw lookup e])).
Proof.
  split; run; destruct (out 0) as [e|]; simpl; repeat split;
    solve [left; reflexivity | right; exists e; reflexivity].
Qed.

(** ** Exceptions *)

(** C6: no handler lets an exception escape, and whenever a store call or
    the hasher threw the answer is 500: "Error creating user account" from
    the registration, and the message of the check from each availability
    check. *)
Theorem exceptions_become_500
    (request : Request) (db : list User) (out : nat -> option exn)
    (sess : Session) :
  (fst (register isEmail request (initial db out sess)) = inr tt
   /\ (existsb threw (trace (outcome (register isEmail request) db out sess))
       = true ->
       responded (outcome (register isEmail request) db out sess) 500
         (VObj [("message", VStr "Error creating user account")])))
  /\ (fst (usercheck request (initial db out sess)) = inr tt
      /\ (existsb threw (trace (outcome (usercheck request) db out sess))
          = true ->
          responded (outcome (usercheck request) db out sess) 500
            (VObj [("message",
                    VStr "Error checking when searching username check")])))
  /\ (fst (emailcheck request (initial db out sess)) = inr tt
      /\ (existsb threw (trace (outcome (emailcheck request) db out sess))
          = true ->
          responded (outcome (emailcheck request) db out sess) 500
            (VObj [("message", VStr "Error checking email availability")]))).
Proof.
  split; [|split].
  - split.
    + register_paths request db out; reflexivity.
    + register_paths request db out; intros Hthrew;
        try discriminate Hthrew; repeat split.
  - split; run; destruct (out 0); simpl; try reflexivity;
      intros Hthrew; try discriminate Hthrew; repeat split.
  - split; run; destruct (out 0); simpl; try reflexivity;
      intros Hthrew; try discriminate Hthrew; repeat split.
Qed.

(** ** The session and the response of a registration *)

(** C7: after a registration answered 201, the session's user and the
    [user] of the response are the document built by [new user(...)]
    before the save, which has no identifier; the record the save stored
    and returned carries one, and is not what the session holds. *)
Theorem register_attaches_new_user
    (request : Request) (db : list User) (out : nat -> option exn)
    (sess : Session) :
  let w' := outcome (register isEmail request) db out sess in
  statusCode (response w') = 201 ->
  exists h,
    hashPassword (body_password (req_body request)) = inr h
    /\ let newUser := new_user (body_username (req_body request)) h
                        (body_email (req_body request)) in
       let savedUser := persisted (List.length db) newUser in
       session_user (session w') = Some newUser
       /\ res_body (response w')
          = Some (VObj [("message", VStr "Registration successful");
                        ("user", VDoc newUser)])
       /\ docs w' = db ++ [savedUser]
       /\ In (Returned (Save newUser)) (trace w')
       /\ savedUser <> newUser
       /\ session_user (session w') <> Some savedUser.
Proof.
  register_paths request db out; intros Hcode; try discriminate Hcode.
  exists h. repeat split; try discriminate.
  do 3 right; left; reflexivity.
Qed.

(** C8: on every outcome of the registration other than 201, and on every
    path on which no save has returned, the session is the one the request
    came with. *)
Theorem register_session_untouched
    (request : Request) (db : list User) (out : nat -> option exn)
    (sess : Session) :
  let w' := outcome (register isEmail request) db out sess in
  statusCode (response w') <> 201
  \/ existsb save_returned (trace w') = false ->
  session w' = sess.
Proof.
  register_paths request db out; intros [Hcode|Hnone];
    try reflexivity; try discriminate Hnone.
  exfalso; apply Hcode; reflexivity.
Qed.

(** C10: after a registration answered 201 the hasher has been called
    once, on the plaintext, and its result is the password of the record
    in the store, of the session's user and of the user in the response;
    it is not the plaintext. *)
Theorem register_hashes_once
    (request : Request) (db : list User) (out : nat -> option exn)
    (sess : Session) :
  let w' := outcome (register isEmail request) db out sess in
  let plaintext := body_password (req_body request) in
  statusCode (response w') = 201 ->
  exists h,
    hashPassword plaintext = inr h
    /\ filter is_hash (trace w') = [Returned (HashPassword plaintext)]
    /\ (exists saved, docs w' = db ++ [saved] /\ password saved = h)
    /\ (exists u, session_user (session w') = Some u /\ password u = h)
    /\ (exists u, res_body (response w')
                  = Some (VObj [("message", VStr "Registration successful");
                                ("user", VDoc u)])
                  /\ password u = h)
    /\ (forall u, In (Returned (Save u)) (trace w') -> password u = h)
    /\ h <> plaintext.
Proof.
  register_paths request db out; intros Hcode; try discriminate Hcode.
  exists h. split; [reflexivity|]. split; [reflexivity|].
  split; [eexists; split; reflexivity|].
  split; [eexists; split; reflexivity|].
  split; [eexists; split; reflexivity|].
  split.
  - intros u [E|[E|[E|[E|[]]]]]; try discriminate E.
    injection E as <-. reflexivity.
  - exact (hashPassword_never_plaintext _ _ Hhash).
Qed.

(** ** Validation failure *)

(** On an invalid request the handler sets the status code to 400 and
    returns: no store call, no session write, and no response is sent. *)
Lemma register_invalid_outcome
    (request : Request) (db : list User) (out : nat -> option exn)
    (sess : Session) :
  characters (body_username (req_body request)) < 3
  \/ characters (body_password (req_body request)) < 3
  \/ isEmail (body_email (req_body request)) = false ->
  outcome (register isEmail request) db out sess
  = set_response {| statusCode := 400; res_body := None;
                    headersSent := false |} (initial db out sess).
Proof.
  intros Hinvalid. unfold outcome.
  rewrite (register_invalid _ _ (invalid_has_errors _ Hinvalid)).
  reflexivity.
Qed.

(** C2: a request whose username is too short leaves the store alone, but
    it is not answered: the status code is set to 400 and the response is
    never sent. *)
Theorem register_invalid_never_answers :
  let w' := outcome (register isEmail (post "ab" "secret" "bob@example.com"))
              [] no_outage anonymous in
  statusCode (response w') = 400
  /\ headersSent (response w') = false
  /\ res_body (response w') = None
  /\ docs w' = []
  /\ trace w' = []
  /\ forall v, ~ responded w' 400 v.
Proof.
  simpl. rewrite register_invalid_outcome by (left; simpl; lia).
  simpl. repeat split. intros v [Hsent _]. discriminate Hsent.
Qed.

End Properties.

(** * The handlers at work

    The theorems above, applied to requests against a store that holds
    alice. *)

Lemma register_creates_account_witness :
  valid simple_isEmail bobby_request
  /\ responded
       (outcome (@register salted_helpers simple_isEmail bobby_request)
          [alice] no_outage anonymous)
       201
       (VObj [("message", VStr "Registration successful");
              ("user", VDoc (new_user "bobby" "$2b$secret" "bob@example.com"))])
  /\ (forall u,
        In u (docs (outcome (@register salted_helpers simple_isEmail
                               bobby_request) [alice] no_outage anonymous)) ->
        username u = "bobby" -> password u <> "secret").
Proof.
  split; [reflexivity|].
  destruct (@register_creates_account salted_helpers simple_isEmail
              bobby_request [alice] no_outage anonymous "$2b$secret")
    as (Hresponse & _ & _ & Hstored);
    try reflexivity;
    try (intros u [<-|[]]; simpl; discriminate).
  split; [exact Hresponse|exact Hstored].
Defined.

Lemma register_username_taken_witness :
  valid simple_isEmail (post "alice" "secret" "bob@example.com")
  /\ responded
       (outcome (@register salted_helpers simple_isEmail
                   (post "alice" "secret" "bob@example.com"))
          [alice] no_outage anonymous)
       400 (VObj [("message", VStr "Username taken")])
  /\ docs (outcome (@register salted_helpers simple_isEmail
                      (post "alice" "secret" "bob@example.com"))
             [alice] no_outage anonymous) = [alice].
Proof.
  split; [reflexivity|].
  destruct (@register_username_taken salted_helpers simple_isEmail
              (post "alice" "secret" "bob@example.com")
              [alice] no_outage anonymous)
    as (Hresponse & Hdocs & _).
  - reflexivity.
  - exists alice. split; [left; reflexivity|reflexivity].
  - reflexivity.
  - split; [exact Hresponse|exact Hdocs].
Defined.

Lemma register_email_registered_witness :
  valid simple_isEmail (post "alicia" "secret" "alice@example.com")
  /\ responded
       (outcome (@register salted_helpers simple_isEmail
                   (post "alicia" "secret" "alice@example.com"))
          [alice] no_outage anonymous)
       400 (VObj [("message", VStr "Email previously registered")])
  /\ responded
       (outcome (@register salted_helpers simple_isEmail
                   (post "alice" "secret" "alice@example.com"))
          [alice] no_outage anonymous)
       400 (VObj [("message", VStr "Username taken")]).
Proof.
  split; [reflexivity|]. split.
  - destruct (@register_email_registered salted_helpers simple_isEmail
                (post "alicia" "secret" "alice@example.com")
                [alice] no_outage anonymous) as [Hemail _];
      try reflexivity.
    + exists alice. split; [left; reflexivity|reflexivity].
    + apply Hemail. intros u [<-|[]]; simpl; discriminate.
  - destruct (@register_email_registered salted_helpers simple_isEmail
                (post "alice" "secret" "alice@example.com")
                [alice] no_outage anonymous) as [_ Hboth];
      try reflexivity.
    + exists alice. split; [left; reflexivity|reflexivity].
    + apply Hboth. exists alice. split; [left; reflexivity|reflexivity].
Defined.

Lemma availability_checks_witness :
  no_outage 0 = None
  /\ (exists b,
        responded (outcome (usercheck (get_usercheck "alice"))
                     [alice] no_outage anonymous)
          200 (VObj [("available", VBool b)])
        /\ (b = true <-> forall u, In u [alice] -> username u <> "alice"))
  /\ (exists b,
        responded (outcome (emailcheck (get_emailcheck "carol@example.com"))
                     [alice] no_outage anonymous)
          200 (VObj [("available", VBool b)])
        /\ (b = true <->
            forall u, In u [alice] -> email u <> "carol@example.com")).
Proof.
  split; [reflexivity|]. split.
  - apply (availability_checks (get_usercheck "alice")
             [alice] no_outage anonymous).
    reflexivity.
  - apply (availability_checks (get_emailcheck "carol@example.com")
             [alice] no_outage anonymous).
    reflexivity.
Defined.

Lemma exceptions_become_500_witness :
  responded
    (outcome (@register failing_helpers simple_isEmail bobby_request)
       [alice] no_outage anonymous)
    500 (VObj [("message", VStr "Error creating user account")])
  /\ responded
       (outcome (@register salted_helpers simple_isEmail bobby_request)
          [alice] (outage_at 2) anonymous)
       500 (VObj [("message", VStr "Error creating user account")])
  /\ responded
       (outcome (usercheck (get_usercheck "bobby"))
          [alice] (outage_at 0) anonymous)
       500 (VObj [("message",
                   VStr "Error checking when searching username check")])
  /\ responded
       (outcome (emailcheck (get_emailcheck "bob@example.com"))
          [alice] (outage_at 0) anonymous)
       500 (VObj [("message", VStr "Error checking email availability")]).
Proof.
  split; [|split; [|split]].
  - apply (proj1 (@exceptions_become_500 failing_helpers simple_isEmail
                    bobby_request [alice] no_outage anonymous)).
    reflexivity.
  - apply (proj1 (@exceptions_become_500 salted_helpers simple_isEmail
                    bobby_request [alice] (outage_at 2) anonymous)).
    reflexivity.
  - apply (proj1 (proj2 (@exceptions_become_500 salted_helpers simple_isEmail
                           (get_usercheck "bobby") [alice] (outage_at 0)
                           anonymous))).
    reflexivity.
  - apply (proj2 (proj2 (@exceptions_become_500 salted_helpers simple_isEmail
                           (get_emailcheck "bob@example.com") [alice]
                           (outage_at 0) anonymous))).
    reflexivity.
Defined.

Lemma register_attaches_new_user_witness :
  statusCode
    (response (outcome (@register salted_helpers simple_isEmail bobby_request)
                 [alice] no_outage anonymous)) = 201
  /\ session_user
       (session (outcome (@register salted_helpers simple_isEmail bobby_request)
                   [alice] no_outage anonymous))
     = Some (new_user "bobby" "$2b$secret" "bob@example.com")
  /\ session_user
       (session (outcome (@register salted_helpers simple_isEmail bobby_request)
                   [alice] no_outage anonymous))
     <> Some (persisted 1 (new_user "bobby" "$2b$secret" "bob@example.com")).
Proof.
  split; [reflexivity|].
  destruct (@register_attaches_new_user salted_helpers simple_isEmail
              bobby_request [alice] no_outage anonymous eq_refl)
    as (h & Hhash & Hsession & _ & _ & _ & _ & Hsaved).
  injection Hhash as <-.
  split; [exact Hsession|exact Hsaved].
Defined.

Lemma register_session_untouched_witness :
  statusCode
    (response (outcome (@register salted_helpers simple_isEmail
                          (post "alice" "secret" "bob@example.com"))
                 [alice] no_outage anonymous)) <> 201
  /\ session (outcome (@register salted_helpers simple_isEmail
                         (post "alice" "secret" "bob@example.com"))
                [alice] no_outage anonymous) = anonymous
  /\ session (outcome (@register salted_helpers simple_isEmail bobby_request)
                [alice] (outage_at 2) anonymous) = anonymous.
Proof.
  split; [simpl; discriminate|]. split.
  - apply (@register_session_untouched salted_helpers simple_isEmail
             (post "alice" "secret" "bob@example.com")
             [alice] no_outage anonymous).
    left; simpl; discriminate.
  - apply (@register_session_untouched salted_helpers simple_isEmail
             bobby_request [alice] (outage_at 2) anonymous).
    right; reflexivity.
Defined.

Lemma register_hashes_once_witness :
  statusCode
    (response (outcome (@register salted_helpers simple_isEmail bobby_request)
                 [alice] no_outage anonymous)) = 201
  /\ exists h,
       @hashPassword salted_helpers "secret" = inr h
       /\ filter is_hash
            (trace (outcome (@register salted_helpers simple_isEmail
                               bobby_request) [alice] no_outage anonymous))
          = [Returned (HashPassword "secret")]
       /\ (exists saved,
             docs (outcome (@register salted_helpers simple_isEmail
                              bobby_request) [alice] no_outage anonymous)
             = [alice] ++ [saved]
             /\ password saved = h)
       /\ h <> "secret".
Proof.
  split; [reflexivity|].
  destruct (@register_hashes_once salted_helpers simple_isEmail
              bobby_request [alice] no_outage anonymous eq_refl)
    as (h & Hhash & Hcalls & Hsaved & _ & _ & _ & Hplain).
  exists h. repeat split; assumption.
Defined.

(** * More on a single request *)

(** The paths through [register] from a world whose collection is [db] and
    whose next three store calls are decided by [o0], [o1] and [o2]. *)
Ltac register_cases isEmail request db o0 o1 o2 :=
  run;
  destruct (isEmpty (validationResult isEmail request)) eqn:Hvalidation; simpl;
  [ destruct o0 as [e0|] eqn:Hlookup1; simpl;
    [ | destruct (truthy (find (matches
            (ByUsername (body_username (req_body request)))) db))
          eqn:Husername; simpl;
        [ | destruct o1 as [e1|] eqn:Hlookup2; simpl;
            [ | destruct (truthy (find (matches
                    (ByEmail (body_email (req_body request)))) db))
                  eqn:Hemail; simpl;
                [ | unfold hash;
                    destruct (hashPassword (body_password (req_body request)))
                      as [eh|h] eqn:Hhash; simpl;
                    [ | destruct o2 as [e2|] eqn:Hsave; simpl ] ] ] ] ]
  | ].

Lemma isEmpty_valid (isEmail : string -> bool) (request : Request) :
  isEmpty (validationResult isEmail request) = true <-> valid isEmail request.
Proof.
  unfold valid. destruct (validationResult isEmail request); simpl; split;
    congruence.
Qed.

Section SingleRequest.

Context {helpers : Helpers}.
Variable isEmail : string -> bool.

(** X1: the registration handler sends a response exactly when the request
    passes validation, that is when the username and the password have at
    least three characters and the email is non-empty and accepted by
    [isEmail]. *)
Theorem register_answers_iff_valid
    (request : Request) (db : list User) (out : nat -> option exn)
    (sess : Session) :
  headersSent (response (outcome (register isEmail request) db out sess)) = true
  <-> 3 <= characters (body_username (req_body request))
      /\ 3 <= characters (body_password (req_body request))
      /\ body_email (req_body request) <> ""
      /\ isEmail (body_email (req_body request)) = true.
Proof.
  rewrite <- valid_fields, <- isEmpty_valid.
  register_cases isEmail request db (out 0) (out 1) (out 2);
    split; intros H; try reflexivity; discriminate H.
Qed.

(** X2: a request that fails validation has the status code set to 400 and
    nothing else: no response is sent, no collaborator is called, and store
    and session are the ones before. *)
Theorem register_invalid_touches_nothing
    (request : Request) (db : list User) (out : nat -> option exn)
    (sess : Session) :
  ~ valid isEmail request ->
  outcome (register isEmail request) db out sess
  = set_response {| statusCode := 400; res_body := None;
                    headersSent := false |} (initial db out sess).
Proof.
  intros Hinvalid. unfold outcome. rewrite register_invalid; [reflexivity|].
  destruct (isEmpty (validationResult isEmail request)) eqn:E;
    [|reflexivity].
  exfalso. apply Hinvalid. apply isEmpty_valid. exact E.
Qed.

(** X3: the registration answers 201 exactly when the request is valid, no
    record has its username or its email, none of the three store calls
    throws and the hasher returns. *)
Theorem register_created_iff
    (request : Request) (db : list User) (out : nat -> option exn)
    (sess : Session) :
  statusCode (response (outcome (register isEmail request) db out sess)) = 201
  <-> valid isEmail request
      /\ (forall u, In u db -> username u <> body_username (req_body request))
      /\ (forall u, In u db -> email u <> body_email (req_body request))
      /\ out 0 = None /\ out 1 = None /\ out 2 = None
      /\ exists h, hashPassword (body_password (req_body request)) = inr h.
Proof.
  rewrite <- isEmpty_valid, <- username_free, <- email_free.
  register_cases isEmail request db (out 0) (out 1) (out 2);
    (split;
     [ intros H; try discriminate H; repeat split; eauto
     | intros (Hv & Hu & He & H0 & H1 & H2 & h' & Hh);
       try reflexivity; congruence ]).
Qed.

(** X4: each handler answers 500 exactly when one of its collaborator calls
    threw. *)
Theorem status_500_iff_threw
    (request : Request) (db : list User) (out : nat -> option exn)
    (sess : Session) :
  (statusCode (response (outcome (register isEmail request) db out sess)) = 500
   <-> existsb threw (trace (outcome (register isEmail request) db out sess))
       = true)
  /\ (statusCode (response (outcome (usercheck request) db out sess)) = 500
      <-> existsb threw (trace (outcome (usercheck request) db out sess))
          = true)
  /\ (statusCode (response (outcome (emailcheck request) db out sess)) = 500
      <-> existsb threw (trace (outcome (emailcheck request) db out sess))
          = true).
Proof.
  split; [|split].
  - register_cases isEmail request db (out 0) (out 1) (out 2);
      split; intros H; try reflexivity; discriminate H.
  - run; destruct (out 0); simpl; split; intros H; try reflexivity;
      discriminate H.
  - run; destruct (out 0); simpl; split; intros H; try reflexivity;
      discriminate H.
Qed.

(** X5: unless the registration answers 201 the collection is exactly the
    one before: a conflict, a failed validation, a hasher that throws or a
    save that throws leaves no record behind. *)
Theorem register_writes_only_on_201
    (request : Request) (db : list User) (out : nat -> option exn)
    (sess : Session) :
  statusCode (response (outcome (register isEmail request) db out sess)) <> 201 ->
  docs (outcome (register isEmail request) db out sess) = db.
Proof.
  register_cases isEmail request db (out 0) (out 1) (out 2);
    intros Hcode; try reflexivity.
  exfalso; apply Hcode; reflexivity.
Qed.

(** X6: the password is hashed only for a request that passed validation
    and both lookups: whenever the hasher was called, the request is valid
    and no record has its username or its email. *)
Theorem register_hashes_only_after_checks
    (request : Request) (db : list User) (out : nat -> option exn)
    (sess : Session) :
  existsb is_hash (trace (outcome (register isEmail request) db out sess))
  = true ->
  valid isEmail request
  /\ (forall u, In u db -> username u <> body_username (req_body request))
  /\ (forall u, In u db -> email u <> body_email (req_body request))
  /\ out 0 = None /\ out 1 = None.
Proof.
  rewrite <- isEmpty_valid, <- username_free, <- email_free.
  register_cases isEmail request db (out 0) (out 1) (out 2);
    intros H; try discriminate H; repeat split; assumption.
Qed.

(** X7: whatever document the handler hands to [save], whether the save
    returns or throws, it is the new user with the hash as its password:
    the plaintext never reaches the store. *)
Theorem register_saves_only_the_hash
    (request : Request) (db : list User) (out : nat -> option exn)
    (sess : Session) (ev : Event) (u : User) :
  In ev (trace (outcome (register isEmail request) db out sess)) ->
  (ev = Returned (Save u) \/ exists e, ev = Threw (Save u) e) ->
  exists h,
    hashPassword (body_password (req_body request)) = inr h
    /\ u = new_user (body_username (req_body request)) h
             (body_email (req_body request))
    /\ password u <> body_password (req_body request).
Proof.
  register_cases isEmail request db (out 0) (out 1) (out 2);
    intros Hin Hev;
    repeat (destruct Hin as [<-|Hin]);
    try contradiction;
    try (destruct Hev as [Hev|[e Hev]]; discriminate Hev).
  - destruct Hev as [Hev|[e Hev]]; [discriminate Hev|].
    injection Hev as <- _. exists h. repeat split.
    exact (hashPassword_never_plaintext _ _ Hhash).
  - destruct Hev as [Hev|[e Hev]]; [|discriminate Hev].
    injection Hev as <-. exists h. repeat split.
    exact (hashPassword_never_plaintext _ _ Hhash).
Qed.

(** X8: a handler stops at the first exception and retries nothing: only
    the last call of a run can have thrown, the registration makes at most
    three store calls and an availability check exactly one. *)
Theorem handlers_stop_at_first_exception
    (request : Request) (db : list User) (out : nat -> option exn)
    (sess : Session) :
  (existsb threw
     (removelast (trace (outcome (register isEmail request) db out sess)))
   = false
   /\ calls (outcome (register isEmail request) db out sess) <= 3)
  /\ (existsb threw
        (removelast (trace (outcome (usercheck request) db out sess)))
      = false
      /\ calls (outcome (usercheck request) db out sess) = 1)
  /\ (existsb threw
        (removelast (trace (outcome (emailcheck request) db out sess)))
      = false
      /\ calls (outcome (emailcheck request) db out sess) = 1).
Proof.
  split; [|split].
  - register_cases isEmail request db (out 0) (out 1) (out 2);
      split; try reflexivity; lia.
  - run; destruct (out 0); simpl; split; reflexivity.
  - run; destruct (out 0); simpl; split; reflexivity.
Qed.

(** X9: no handler reads the session: the store, the response and the
    calls of a run are the same whatever session the request comes with, so
    a client that is already signed in registers like any other. *)
Theorem handlers_ignore_session
    (request : Request) (db : list User) (out : nat -> option exn)
    (sess1 sess2 : Session) :
  (docs (outcome (register isEmail request) db out sess1)
   = docs (outcome (register isEmail request) db out sess2)
   /\ response (outcome (register isEmail request) db out sess1)
      = response (outcome (register isEmail request) db out sess2)
   /\ trace (outcome (register isEmail request) db out sess1)
      = trace (outcome (register isEmail request) db out sess2))
  /\ outcome (usercheck request) db out sess2
     = set_session sess2 (outcome (usercheck request) db out sess1)
  /\ outcome (emailcheck request) db out sess2
     = set_session sess2 (outcome (emailcheck request) db out sess1).
Proof.
  split; [|split].
  - register_cases isEmail request db (out 0) (out 1) (out 2);
      repeat split.
  - run; destruct (out 0); reflexivity.
  - run; destruct (out 0); reflexivity.
Qed.

(** X10: the availability checks tell what a registration would do: for a
    valid request, with the collaborators up, the registration answers 201
    exactly when both checks, on the same store, answer
    [{available: true}]. *)
Theorem availability_predicts_registration
    (request : Request) (db : list User) (out : nat -> option exn)
    (sess : Session) (h : string) :
  valid isEmail request ->
  out 0 = None -> out 1 = None -> out 2 = None ->
  hashPassword (body_password (req_body request)) = inr h ->
  (statusCode (response (outcome (register isEmail request) db out sess)) = 201
   <-> res_body (response
                   (outcome (usercheck
                               (get_usercheck (body_username (req_body request))))
                      db out sess))
       = Some (VObj [("available", VBool true)])
       /\ res_body (response
                      (outcome (emailcheck
                                  (get_emailcheck (body_email (req_body request))))
                         db out sess))
          = Some (VObj [("available", VBool true)])).
Proof.
  intros Hvalid H0 H1 H2 Hh. apply isEmpty_valid in Hvalid.
  run. unfold hash. rewrite Hvalid; simpl. rewrite !H0; simpl.
  destruct (truthy (find (matches
              (ByUsername (body_username (req_body request)))) db)); simpl.
  - split; [intros H; discriminate H|intros [H _]; discriminate H].
  - rewrite H1; simpl.
    destruct (truthy (find (matches
                (ByEmail (body_email (req_body request)))) db)); simpl.
    + split; [intros H; discriminate H|intros [_ H]; discriminate H].
    + rewrite Hh; simpl. rewrite H2; simpl. split; intros _; repeat split.
Qed.

End SingleRequest.

(** * Successive requests *)

Lemma NoDup_snoc {A} (l : list A) (a : A) :
  NoDup l -> ~ In a l -> NoDup (l ++ [a]).
Proof.
  induction l as [|x l IH]; simpl; intros Hl Ha.
  - constructor; [intros []|constructor].
  - inversion Hl as [|? ? Hx Hl']; subst. constructor.
    + intros Hin. apply in_app_or in Hin. destruct Hin as [Hin|[->|[]]].
      * exact (Hx Hin).
      * apply Ha. left; reflexivity.
    + apply IH; [exact Hl'|]. intros Hin. apply Ha. right; exact Hin.
Qed.

Lemma unique_snoc (db : list User) (u : User) :
  unique db ->
  (forall v, In v db -> username v <> username u) ->
  (forall v, In v db -> email v <> email u) ->
  unique (db ++ [u]).
Proof.
  intros [Hn He] Hu Hm. unfold unique. rewrite !map_app. simpl.
  split; apply NoDup_snoc; try assumption; intros Hin;
    apply in_map_iff in Hin; destruct Hin as (v & Hv & Hin).
  - exact (Hu v Hin Hv).
  - exact (Hm v Hin Hv).
Qed.

Lemma find_snoc (f : Filter) (db : list User) (u : User) :
  matches f u = true -> truthy (find (matches f) (db ++ [u])) = true.
Proof.
  apply find_matches_some. apply in_or_app. right. left. reflexivity.
Qed.

Section Successive.

Context {helpers : Helpers}.
Variable isEmail : string -> bool.

(** What one registration does to the collection, from any world: nothing,
    or one record appended for a valid request whose username and email
    were free. *)
Lemma register_step (request : Request) (w : World) :
  docs (snd (register isEmail request w)) = docs w
  \/ valid isEmail request
     /\ (forall u, In u (docs w) ->
                   username u <> body_username (req_body request))
     /\ (forall u, In u (docs w) -> email u <> body_email (req_body request))
     /\ exists h,
          hashPassword (body_password (req_body request)) = inr h
          /\ docs (snd (register isEmail request w))
             = docs w ++ [persisted (List.length (docs w))
                            (new_user (body_username (req_body request)) h
                               (body_email (req_body request)))].
Proof.
  rewrite <- isEmpty_valid, <- username_free, <- email_free.
  register_cases isEmail request (docs w) (outage w (calls w))
    (outage w (S (calls w))) (outage w (S (S (calls w))));
    try (left; reflexivity).
  right. repeat split; try assumption. exists h. split; reflexivity.
Qed.

Lemma check_step (w : World) (request : Request) :
  docs (snd (usercheck request w)) = docs w
  /\ docs (snd (emailcheck request w)) = docs w.
Proof.
  split; run; destruct (outage w (calls w)); reflexivity.
Qed.

Lemma serve_step (w : World) (incoming : Route * Request) :
  docs (serve isEmail w incoming) = docs w
  \/ is_register incoming = true
     /\ valid isEmail (snd incoming)
     /\ (forall u, In u (docs w) ->
                   username u <> body_username (req_body (snd incoming)))
     /\ (forall u, In u (docs w) ->
                   email u <> body_email (req_body (snd incoming)))
     /\ exists h,
          hashPassword (body_password (req_body (snd incoming))) = inr h
          /\ docs (serve isEmail w incoming)
             = docs w ++ [persisted (List.length (docs w))
                            (new_user (body_username (req_body (snd incoming)))
                               h (body_email (req_body (snd incoming))))].
Proof.
  destruct incoming as [[| |] request]; unfold serve, is_register; simpl.
  - destruct (register_step request (next_request w)) as [H|H].
    + left; exact H.
    + right. split; [reflexivity|exact H].
  - left. exact (proj1 (check_step (next_request w) request)).
  - left. exact (proj2 (check_step (next_request w) request)).
Qed.

(** X11: handled one after the other, the requests keep the store free of
    duplicates: if no two records share a username or an email before, none
    do after any sequence of requests, whatever calls throw on the way. *)
Theorem serve_all_keeps_unique
    (incoming : list (Route * Request)) (w : World) :
  unique (docs w) -> unique (docs (serve_all isEmail incoming w)).
Proof.
  revert w. induction incoming as [|first rest IH]; intros w Hunique.
  - exact Hunique.
  - simpl. apply IH.
    destruct (serve_step w first) as [->|(_ & _ & Hu & He & h & _ & ->)].
    + exact Hunique.
    + apply unique_snoc; assumption.
Qed.

(** X12: the handlers never delete or change a record: after any sequence
    of requests the collection is the one before followed by the records
    added, at most one for each registration request. *)
Theorem serve_all_only_appends
    (incoming : list (Route * Request)) (w : World) :
  exists added,
    docs (serve_all isEmail incoming w) = docs w ++ added
    /\ List.length added <= List.length (filter is_register incoming).
Proof.
  revert w. induction incoming as [|first rest IH]; intros w.
  - exists []. split; [symmetry; apply app_nil_r|apply Nat.le_0_l].
  - simpl. destruct (IH (serve isEmail w first)) as (added & Hdocs & Hlen).
    destruct (serve_step w first) as [E|(Hreg & _ & _ & _ & h & _ & E)].
    + exists added. rewrite Hdocs, E. split; [reflexivity|].
      destruct (is_register first); simpl; lia.
    + eexists (_ :: added). rewrite Hdocs, E, <- app_assoc. simpl.
      split; [reflexivity|]. rewrite Hreg. simpl. lia.
Qed.

(** X13: every record in the store after a sequence of requests was there
    before or comes from a registration request of the sequence: it has the
    username and the email of that request, and its password is the hash of
    the request's password, not the password itself. *)
Theorem serve_all_records_come_from_requests
    (incoming : list (Route * Request)) (w : World) (u : User) :
  In u (docs (serve_all isEmail incoming w)) ->
  In u (docs w)
  \/ exists request,
       In (PostRegister, request) incoming
       /\ username u = body_username (req_body request)
       /\ email u = body_email (req_body request)
       /\ hashPassword (body_password (req_body request)) = inr (password u)
       /\ password u <> body_password (req_body request).
Proof.
  revert w. induction incoming as [|first rest IH]; intros w Hin.
  - left; exact Hin.
  - simpl in Hin. apply IH in Hin. destruct Hin as [Hin|(r & Hr & Hrest)].
    + destruct (serve_step w first) as [E|(Hreg & _ & _ & _ & h & Hh & E)];
        rewrite E in Hin.
      * left; exact Hin.
      * apply in_app_or in Hin. destruct Hin as [Hin|[<-|[]]].
        -- left; exact Hin.
        -- right. destruct first as [[| |] request]; try discriminate Hreg.
           exists request. simpl in *. repeat split.
           ++ left; reflexivity.
           ++ exact Hh.
           ++ exact (hashPassword_never_plaintext _ _ Hh).
    + right. exists r. split; [right; exact Hr|exact Hrest].
Qed.

(** The world a registration answered 201 leaves. *)
Lemma register_created_world
    (request : Request) (db : list User) (out : nat -> option exn)
    (sess : Session) :
  statusCode (response (outcome (register isEmail request) db out sess)) = 201 ->
  exists h,
    hashPassword (body_password (req_body request)) = inr h
    /\ docs (outcome (register isEmail request) db out sess)
       = db ++ [persisted (List.length db)
                  (new_user (body_username (req_body request)) h
                     (body_email (req_body request)))]
    /\ outage (outcome (register isEmail request) db out sess) = out
    /\ calls (outcome (register isEmail request) db out sess) = 3.
Proof.
  register_cases isEmail request db (out 0) (out 1) (out 2);
    intros Hcode; try discriminate Hcode.
  exists h. repeat split.
Qed.

(** X14: once a registration has been answered 201, the checks that follow
    it answer [{available: false}] for its username and for its email. *)
Theorem registered_name_is_unavailable
    (request : Request) (db : list User) (out : nat -> option exn)
    (sess : Session) :
  statusCode (response (outcome (register isEmail request) db out sess)) = 201 ->
  out 3 = None ->
  responded
    (serve isEmail (outcome (register isEmail request) db out sess)
       (GetUsercheck, get_usercheck (body_username (req_body request))))
    200 (VObj [("available", VBool false)])
  /\ responded
       (serve isEmail (outcome (register isEmail request) db out sess)
          (GetEmailcheck, get_emailcheck (body_email (req_body request))))
       200 (VObj [("available", VBool false)]).
Proof.
  intros Hcode H3.
  destruct (register_created_world request db out sess Hcode)
    as (h & _ & Hdocs & Hout & Hcalls).
  remember (outcome (register isEmail request) db out sess) as w1 eqn:Hw1.
  clear Hw1 Hcode. unfold serve; simpl.
  split; run; rewrite Hout, Hcalls, H3, Hdocs; simpl.
  - rewrite (find_snoc (ByUsername _));
      [repeat split|apply String.eqb_refl].
  - rewrite (find_snoc (ByEmail _));
      [repeat split|apply String.eqb_refl].
Qed.

(** X15: once a registration has been answered 201, a second valid
    registration with the same username is answered 400 "Username taken",
    one with another, unused username and the same email is answered 400
    "Email previously registered", and neither adds a record. *)
Theorem second_registration_is_rejected
    (request again : Request) (db : list User) (out : nat -> option exn)
    (sess : Session) :
  statusCode (response (outcome (register isEmail request) db out sess)) = 201 ->
  valid isEmail again ->
  out 3 = None ->
  let w1 := outcome (register isEmail request) db out sess in
  (body_username (req_body again) = body_username (req_body request) ->
   responded (serve isEmail w1 (PostRegister, again)) 400
     (VObj [("message", VStr "Username taken")])
   /\ docs (serve isEmail w1 (PostRegister, again)) = docs w1)
  /\ ((forall u, In u (docs w1) ->
                 username u <> body_username (req_body again)) ->
      body_email (req_body again) = body_email (req_body request) ->
      out 4 = None ->
      responded (serve isEmail w1 (PostRegister, again)) 400
        (VObj [("message", VStr "Email previously registered")])
      /\ docs (serve isEmail w1 (PostRegister, again)) = docs w1).
Proof.
  intros Hcode Hvalid H3 w1. apply isEmpty_valid in Hvalid.
  destruct (register_created_world request db out sess Hcode)
    as (h & _ & Hdocs & Hout & Hcalls).
  fold w1 in Hdocs, Hout, Hcalls. clearbody w1. clear Hcode.
  split.
  - intros Hsame.
    assert (Htaken : truthy (find (matches
                       (ByUsername (body_username (req_body again))))
                       (docs w1)) = true)
      by (rewrite Hdocs, Hsame; apply find_snoc; apply String.eqb_refl).
    unfold serve; simpl. run.
    rewrite Hvalid; simpl. rewrite Hout, Hcalls, H3; simpl.
    rewrite Htaken; simpl. repeat split.
  - intros Hfree Hsame H4. apply username_free in Hfree.
    assert (Htaken : truthy (find (matches
                       (ByEmail (body_email (req_body again))))
                       (docs w1)) = true)
      by (rewrite Hdocs, Hsame; apply find_snoc; apply String.eqb_refl).
    unfold serve; simpl. run.
    rewrite Hvalid; simpl. rewrite Hout, Hcalls, H3; simpl.
    rewrite Hfree; simpl. rewrite H4; simpl.
    rewrite Htaken; simpl. repeat split.
Qed.

End Successive.

(** * The console *)

Ltac run_console :=
  unfold outcome_logged, register_logged, usercheck_logged, emailcheck_logged,
    try_catchC, bindC, lift, console_log, console_error, new_user_registered;
  simpl.

Section ConsoleProperties.

Context {helpers : Helpers}.
Variable isEmail : string -> bool.

(** The handlers with their console calls are the handlers of the claims:
    from any world and any console, each returns what the handler without
    the calls returns and leaves the same world. *)
Lemma logging_changes_nothing
    (request : Request) (w : World) (lines : list Line) :
  (fst (register_logged isEmail request (w, lines)),
   fst (snd (register_logged isEmail request (w, lines))))
  = register isEmail request w
  /\ (fst (usercheck_logged request (w, lines)),
      fst (snd (usercheck_logged request (w, lines))))
     = usercheck request w
  /\ (fst (emailcheck_logged request (w, lines)),
      fst (snd (emailcheck_logged request (w, lines))))
     = emailcheck request w.
Proof.
  split; [|split].
  - run_console.
    register_cases isEmail request (docs w) (outage w (calls w))
      (outage w (S (calls w))) (outage w (S (S (calls w)))); reflexivity.
  - run_console. run. destruct (outage w (calls w)); reflexivity.
  - run_console. run. destruct (outage w (calls w)); reflexivity.
Qed.

(** X17: every registration request, valid or not, has its body written
    to the console first, the password in plaintext. *)
Theorem register_logs_plaintext_password
    (request : Request) (db : list User) (out : nat -> option exn)
    (sess : Session) :
  exists rest,
    snd (outcome_logged (register_logged isEmail request) db out sess)
    = ConsoleLog
        [PText "Registration attempt received:";
         PValue (VObj [("username", VStr (body_username (req_body request)));
                       ("password", VStr (body_password (req_body request)));
                       ("email", VStr (body_email (req_body request)))])]
      :: rest.
Proof.
  run_console.
  register_cases isEmail request db (out 0) (out 1) (out 2);
    eexists; reflexivity.
Qed.

(** X18: whenever the hasher was called and returned, the hash is written
    to the console, on a line of its own. *)
Theorem register_logs_the_hash
    (request : Request) (db : list User) (out : nat -> option exn)
    (sess : Session) (hashed : string) :
  hashPassword (body_password (req_body request)) = inr hashed ->
  existsb is_hash
    (trace (fst (outcome_logged (register_logged isEmail request) db out sess)))
  = true ->
  In (ConsoleLog [PText hashed])
    (snd (outcome_logged (register_logged isEmail request) db out sess)).
Proof.
  intros Hh. run_console.
  register_cases isEmail request db (out 0) (out 1) (out 2);
    intros Hcalled; try discriminate Hcalled; try discriminate Hh;
    injection Hh as <-; right; left; reflexivity.
Qed.

(** X19: an exception is written to the console and kept from the client:
    when a call threw [e], the handler has called [console.error] with [e],
    and the body of the response is the fixed message of the handler. *)
Theorem errors_are_logged_not_sent
    (request : Request) (db : list User) (out : nat -> option exn)
    (sess : Session) (c : Call) (e : exn) :
  (In (Threw c e)
      (trace (fst (outcome_logged (register_logged isEmail request)
                     db out sess))) ->
   In (ConsoleError [PText "Registration error:"; PError e])
      (snd (outcome_logged (register_logged isEmail request) db out sess))
   /\ res_body (response (fst (outcome_logged (register_logged isEmail request)
                                 db out sess)))
      = Some (VObj [("message", VStr "Error creating user account")]))
  /\ (In (Threw c e)
         (trace (fst (outcome_logged (usercheck_logged request) db out sess))) ->
      In (ConsoleError [PText "Username check error:"; PError e])
         (snd (outcome_logged (usercheck_logged request) db out sess))
      /\ res_body (response (fst (outcome_logged (usercheck_logged request)
                                    db out sess)))
         = Some (VObj [("message",
                        VStr "Error checking when searching username check")]))
  /\ (In (Threw c e)
         (trace (fst (outcome_logged (emailcheck_logged request) db out sess))) ->
      In (ConsoleError [PText "Email check error:"; PError e])
         (snd (outcome_logged (emailcheck_logged request) db out sess))
      /\ res_body (response (fst (outcome_logged (emailcheck_logged request)
                                    db out sess)))
         = Some (VObj [("message", VStr "Error checking email availability")])).
Proof.
  split; [|split].
  - run_console.
    register_cases isEmail request db (out 0) (out 1) (out 2);
      intros Hin;
      repeat (destruct Hin as [Hin|Hin]; [try discriminate Hin|]);
      try contradiction;
      injection Hin as _ <-; split; try reflexivity;
      repeat (first [left; reflexivity|right]).
  - run_console. run. destruct (out 0); simpl; intros Hin;
      repeat (destruct Hin as [Hin|Hin]; [try discriminate Hin|]);
      try contradiction.
    injection Hin as _ <-. split; [left|]; reflexivity.
  - run_console. run. destruct (out 0); simpl; intros Hin;
      repeat (destruct Hin as [Hin|Hin]; [try discriminate Hin|]);
      try contradiction.
    injection Hin as _ <-. split; [left|]; reflexivity.
Qed.

(** X20: [console.error] is called exactly on the runs in which a call
    threw. *)
Theorem console_error_iff_threw
    (request : Request) (db : list User) (out : nat -> option exn)
    (sess : Session) :
  existsb is_console_error
    (snd (outcome_logged (register_logged isEmail request) db out sess))
  = existsb threw
      (trace (fst (outcome_logged (register_logged isEmail request)
                     db out sess)))
  /\ existsb is_console_error
       (snd (outcome_logged (usercheck_logged request) db out sess))
     = existsb threw
         (trace (fst (outcome_logged (usercheck_logged request) db out sess)))
  /\ existsb is_console_error
       (snd (outcome_logged (emailcheck_logged request) db out sess))
     = existsb threw
         (trace (fst (outcome_logged (emailcheck_logged request) db out sess))).
Proof.
  split; [|split].
  - run_console.
    register_cases isEmail request db (out 0) (out 1) (out 2); reflexivity.
  - run_console. run. destruct (out 0); reflexivity.
  - run_console. run. destruct (out 0); reflexivity.
Qed.

(** X21: on a request that fails validation the messages are written to
    the console, after the body of the request, and are not sent: the
    response has no body. *)
Theorem validation_messages_are_logged_not_sent
    (request : Request) (db : list User) (out : nat -> option exn)
    (sess : Session) :
  ~ valid isEmail request ->
  snd (outcome_logged (register_logged isEmail request) db out sess)
  = [ConsoleLog [PText "Registration attempt received:";
                 PValue (attempt request)];
     ConsoleLog [PText "Validation errors:";
                 PMessages (validationResult isEmail request)]]
  /\ validationResult isEmail request <> []
  /\ res_body (response (fst (outcome_logged (register_logged isEmail request)
                                db out sess)))
     = None.
Proof.
  intros Hinvalid. rewrite <- isEmpty_valid in Hinvalid.
  run_console. run.
  destruct (isEmpty (validationResult isEmail request)) eqn:E.
  - exfalso; apply Hinvalid; reflexivity.
  - simpl. repeat split. intros Hnil. rewrite Hnil in E. discriminate E.
Qed.

End ConsoleProperties.

(** * More of the handlers at work *)

Lemma register_invalid_touches_nothing_witness :
  ~ valid simple_isEmail empty_request
  /\ outcome (@register salted_helpers simple_isEmail empty_request)
       [alice] no_outage anonymous
     = set_response {| statusCode := 400; res_body := None;
                       headersSent := false |}
         (initial [alice] no_outage anonymous).
Proof.
  assert (Hinvalid : ~ valid simple_isEmail empty_request)
    by (unfold valid; simpl; discriminate).
  split; [exact Hinvalid|].
  exact (@register_invalid_touches_nothing salted_helpers simple_isEmail
           empty_request [alice] no_outage anonymous Hinvalid).
Defined.

Lemma register_writes_only_on_201_witness :
  statusCode
    (response (outcome (@register salted_helpers simple_isEmail bobby_request)
                 [alice] (outage_at 2) anonymous)) <> 201
  /\ docs (outcome (@register salted_helpers simple_isEmail bobby_request)
             [alice] (outage_at 2) anonymous) = [alice].
Proof.
  assert (Hcode : statusCode
            (response (outcome (@register salted_helpers simple_isEmail
                                  bobby_request)
                         [alice] (outage_at 2) anonymous)) <> 201)
    by (simpl; discriminate).
  split; [exact Hcode|].
  exact (@register_writes_only_on_201 salted_helpers simple_isEmail
           bobby_request [alice] (outage_at 2) anonymous Hcode).
Defined.

Lemma register_hashes_only_after_checks_witness :
  existsb is_hash (trace bobby_created) = true
  /\ valid simple_isEmail bobby_request
  /\ (forall u, In u [alice] -> username u <> "bobby")
  /\ (forall u, In u [alice] -> email u <> "bob@example.com").
Proof.
  split; [reflexivity|].
  destruct (@register_hashes_only_after_checks salted_helpers simple_isEmail
              bobby_request [alice] no_outage anonymous eq_refl)
    as (Hvalid & Hname & Hmail & _).
  repeat split; assumption.
Defined.

Lemma register_saves_only_the_hash_witness :
  In (Threw (Save (new_user "bobby" "$2b$secret" "bob@example.com"))
        (Error "store unreachable"))
     (trace (outcome (@register salted_helpers simple_isEmail bobby_request)
               [alice] (outage_at 2) anonymous))
  /\ exists h,
       salted "secret" = inr h
       /\ new_user "bobby" "$2b$secret" "bob@example.com"
          = new_user "bobby" h "bob@example.com"
       /\ "$2b$secret" <> "secret".
Proof.
  assert (Hin : In (Threw (Save (new_user "bobby" "$2b$secret"
                                   "bob@example.com"))
                      (Error "store unreachable"))
                   (trace (outcome (@register salted_helpers simple_isEmail
                                      bobby_request)
                             [alice] (outage_at 2) anonymous)))
    by (simpl; do 3 right; left; reflexivity).
  split; [exact Hin|].
  exact (@register_saves_only_the_hash salted_helpers simple_isEmail
           bobby_request [alice] (outage_at 2) anonymous _ _ Hin
           (or_intror (ex_intro _ (Error "store unreachable") eq_refl))).
Defined.

Lemma availability_predicts_registration_witness :
  statusCode (response bobby_created) = 201
  <-> res_body (response (outcome (usercheck (get_usercheck "bobby"))
                            [alice] no_outage anonymous))
      = Some (VObj [("available", VBool true)])
      /\ res_body (response (outcome (emailcheck
                                        (get_emailcheck "bob@example.com"))
                               [alice] no_outage anonymous))
         = Some (VObj [("available", VBool true)]).
Proof.
  apply (@availability_predicts_registration salted_helpers simple_isEmail
           bobby_request [alice] no_outage anonymous "$2b$secret");
    reflexivity.
Defined.

Lemma unique_alice : unique [alice].
Proof.
  split; simpl; (constructor; [intros []|constructor]).
Qed.

Lemma serve_all_keeps_unique_witness :
  unique [alice]
  /\ unique
       (docs (@serve_all salted_helpers simple_isEmail
                [(PostRegister, bobby_request);
                 (GetUsercheck, get_usercheck "bobby");
                 (PostRegister, bobby_request)]
                (initial [alice] (outage_at 1) anonymous))).
Proof.
  split; [exact unique_alice|].
  apply (@serve_all_keeps_unique salted_helpers simple_isEmail).
  exact unique_alice.
Defined.

Lemma serve_all_records_come_from_requests_witness :
  In bobby_record
     (docs (@serve_all salted_helpers simple_isEmail
              [(GetUsercheck, get_usercheck "bobby");
               (PostRegister, bobby_request)]
              (initial [alice] no_outage anonymous)))
  /\ (In bobby_record [alice]
      \/ exists request,
           In (PostRegister, request)
              [(GetUsercheck, get_usercheck "bobby");
               (PostRegister, bobby_request)]
           /\ username bobby_record = body_username (req_body request)
           /\ email bobby_record = body_email (req_body request)
           /\ salted (body_password (req_body request))
              = inr (password bobby_record)
           /\ password bobby_record <> body_password (req_body request)).
Proof.
  assert (Hin : In bobby_record
                   (docs (@serve_all salted_helpers simple_isEmail
                            [(GetUsercheck, get_usercheck "bobby");
                             (PostRegister, bobby_request)]
                            (initial [alice] no_outage anonymous))))
    by (simpl; right; left; reflexivity).
  split; [exact Hin|].
  exact (@serve_all_records_come_from_requests salted_helpers simple_isEmail
           _ _ _ Hin).
Defined.

Lemma registered_name_is_unavailable_witness :
  statusCode (response bobby_created) = 201
  /\ responded
       (@serve salted_helpers simple_isEmail bobby_created
          (GetUsercheck, get_usercheck "bobby"))
       200 (VObj [("available", VBool false)])
  /\ responded
       (@serve salted_helpers simple_isEmail bobby_created
          (GetEmailcheck, get_emailcheck "bob@example.com"))
       200 (VObj [("available", VBool false)]).
Proof.
  split; [reflexivity|].
  exact (@registered_name_is_unavailable salted_helpers simple_isEmail
           bobby_request [alice] no_outage anonymous eq_refl eq_refl).
Defined.

Lemma second_registration_is_rejected_witness :
  responded
    (@serve salted_helpers simple_isEmail bobby_created
       (PostRegister, bobby_request))
    400 (VObj [("message", VStr "Username taken")])
  /\ responded
       (@serve salted_helpers simple_isEmail bobby_created
          (PostRegister, post "robert" "hunter2" "bob@example.com"))
       400 (VObj [("message", VStr "Email previously registered")])
  /\ docs (@serve salted_helpers simple_isEmail bobby_created
             (PostRegister, post "robert" "hunter2" "bob@example.com"))
     = [alice; bobby_record].
Proof.
  split.
  - apply (@second_registration_is_rejected salted_helpers simple_isEmail
             bobby_request bobby_request [alice] no_outage anonymous);
      reflexivity.
  - apply (@second_registration_is_rejected salted_helpers simple_isEmail
             bobby_request (post "robert" "hunter2" "bob@example.com")
             [alice] no_outage anonymous); try reflexivity.
    intros u [<-|[<-|[]]]; simpl; discriminate.
Defined.

Lemma register_logs_the_hash_witness :
  salted "secret" = inr "$2b$secret"
  /\ In (ConsoleLog [PText "$2b$secret"])
       (snd (outcome_logged
               (@register_logged salted_helpers simple_isEmail bobby_request)
               [alice] (outage_at 2) anonymous)).
Proof.
  split; [reflexivity|].
  apply (@register_logs_the_hash salted_helpers simple_isEmail
           bobby_request [alice] (outage_at 2) anonymous "$2b$secret");
    reflexivity.
Defined.

Lemma errors_are_logged_not_sent_witness :
  In (ConsoleError [PText "Registration error:";
                    PError (Error "hashing failed")])
     (snd (outcome_logged
             (@register_logged failing_helpers simple_isEmail bobby_request)
             [alice] no_outage anonymous))
  /\ In (ConsoleError [PText "Username check error:";
                       PError (Error "store unreachable")])
        (snd (outcome_logged (usercheck_logged (get_usercheck "bobby"))
                [alice] (outage_at 0) anonymous))
  /\ In (ConsoleError [PText "Email check error:";
                       PError (Error "store unreachable")])
        (snd (outcome_logged
                (emailcheck_logged (get_emailcheck "bob@example.com"))
                [alice] (outage_at 0) anonymous)).
Proof.
  split; [|split].
  - apply (proj1 (@errors_are_logged_not_sent failing_helpers simple_isEmail
                    bobby_request [alice] no_outage anonymous
                    (HashPassword "secret") (Error "hashing failed"))).
    simpl. do 2 right; left; reflexivity.
  - apply (proj1 (proj2 (@errors_are_logged_not_sent salted_helpers
                           simple_isEmail (get_usercheck "bobby") [alice]
                           (outage_at 0) anonymous
                           (FindOne (ByUsername "bobby"))
                           (Error "store unreachable")))).
    simpl. left; reflexivity.
  - apply (proj2 (proj2 (@errors_are_logged_not_sent salted_helpers
                           simple_isEmail (get_emailcheck "bob@example.com")
                           [alice] (outage_at 0) anonymous
                           (FindOne (ByEmail "bob@example.com"))
                           (Error "store unreachable")))).
    simpl. left; reflexivity.
Defined.

Lemma validation_messages_are_logged_not_sent_witness :
  ~ valid simple_isEmail empty_request
  /\ snd (outcome_logged
            (@register_logged salted_helpers simple_isEmail empty_request)
            [alice] no_outage anonymous)
     = [ConsoleLog [PText "Registration attempt received:";
                    PValue (attempt empty_request)];
        ConsoleLog [PText "Validation errors:";
                    PMessages (validationResult simple_isEmail empty_request)]].
Proof.
  assert (Hinvalid : ~ valid simple_isEmail empty_request)
    by (unfold valid; simpl; discriminate).
  split; [exact Hinvalid|].
  exact (proj1 (@validation_messages_are_logged_not_sent salted_helpers
                  simple_isEmail empty_request [alice] no_outage anonymous
                  Hinvalid)).
Defined.

(** Length is counted in characters: a username of two characters in six
    bytes raises the message of [isLength], and the request is left without
    an answer. *)
Lemma two_kanji_too_short :
  characters two_kanji = 2
  /\ String.length two_kanji = 6
  /\ validationResult simple_isEmail
       (post two_kanji "secret" "bob@example.com")
     = ["Username must be at least 3 characters long"]
  /\ headersSent
       (response (outcome (@register salted_helpers simple_isEmail
                             (post two_kanji "secret" "bob@example.com"))
                    [alice] no_outage anonymous))
     = false.
Proof. repeat split. Qed.
